(** * The sudo LDAP back end: initialisation and request handling

    A shallow embedding of [src/providers/ldap/sdap_sudo.c].  The C code
    is event driven: a function either finishes its work at once or
    registers a completion callback on a tevent request and returns.  The
    embedding keeps that shape: every function of the file is a
    computation over a [world] holding the provider context, the queue of
    registered callbacks and the log of calls made to collaborators. *)

From Stdlib Require Import ZArith List String Bool Lia.
Import ListNotations.
Local Open Scope Z_scope.

(** ** Constants

    The C constants below are declared in headers outside this file:
    [<errno.h>], [util/util_errors.h] and [providers/data_provider.h].
    The numbers are those of these headers on Linux; the results below use
    the constants by name and only need them to be distinct. *)

Definition errno_t := Z.

(** Modelled from the spec: success, no error code; [EOK] of
    [util/util_errors.h]. *)
Definition EOK : errno_t := 0.

(** Modelled from the spec: the error code [NotFound]; [ENOENT] of
    [<errno.h>]. *)
Definition ENOENT : errno_t := 2.

(** Modelled from the spec: the error code [TemporarilyUnavailable];
    [EAGAIN] of [<errno.h>]. *)
Definition EAGAIN : errno_t := 11.

(** Modelled from the spec: the error code [OutOfMemory]; [ENOMEM] of
    [<errno.h>]. *)
Definition ENOMEM : errno_t := 12.

(** Modelled from the spec: an error code the spec does not name; [EINVAL]
    of [<errno.h>]. *)
Definition EINVAL : errno_t := 22.

(** Modelled from the spec: the error code [Internal]; [ERR_INTERNAL] of
    [util/util_errors.h], the second code above [ERR_BASE]. *)
Definition ERR_INTERNAL : errno_t := 0x555D0001.

(** Modelled from the spec: the reply category [OK]; [DP_ERR_OK] of
    [providers/data_provider.h]. *)
Definition DP_ERR_OK : Z := 0.

(** Modelled from the spec: the reply category [Offline]; [DP_ERR_OFFLINE]
    of [providers/data_provider.h]. *)
Definition DP_ERR_OFFLINE : Z := 1.

(** Modelled from the spec: the reply category [Fatal]; [DP_ERR_FATAL] of
    [providers/data_provider.h]. *)
Definition DP_ERR_FATAL : Z := 3.

(** Modelled from the spec: the request kind [Full]; [BE_REQ_SUDO_FULL] of
    [providers/data_provider.h]. *)
Definition BE_REQ_SUDO_FULL : Z := 0x0006.

(** Modelled from the spec: the request kind [Rules]; [BE_REQ_SUDO_RULES]
    of [providers/data_provider.h]. *)
Definition BE_REQ_SUDO_RULES : Z := 0x0007.

(** ** Data *)

(** [struct sdap_sudo_ctx], without the back pointer [id_ctx].  A [char **]
    that may be [NULL] is an [option]. *)
Record sdap_sudo_ctx := mk_sudo_ctx {
  hostnames : option (list string);
  ip_addr : option (list string);
  include_netgroups : bool;
  include_regexp : bool;
  use_host_filter : bool;
  full_refresh_done : bool
}.

(** What [talloc_zero] hands out. *)
Definition zero_ctx : sdap_sudo_ctx :=
  mk_sudo_ctx None None false false false false.

Definition set_use_host_filter (b : bool) (c : sdap_sudo_ctx) :=
  mk_sudo_ctx (hostnames c) (ip_addr c) (include_netgroups c)
              (include_regexp c) b (full_refresh_done c).

Definition set_include_regexp (b : bool) (c : sdap_sudo_ctx) :=
  mk_sudo_ctx (hostnames c) (ip_addr c) (include_netgroups c)
              b (use_host_filter c) (full_refresh_done c).

Definition set_include_netgroups (b : bool) (c : sdap_sudo_ctx) :=
  mk_sudo_ctx (hostnames c) (ip_addr c) b
              (include_regexp c) (use_host_filter c) (full_refresh_done c).

Definition set_full_refresh_done (b : bool) (c : sdap_sudo_ctx) :=
  mk_sudo_ctx (hostnames c) (ip_addr c) (include_netgroups c)
              (include_regexp c) (use_host_filter c) b.

Definition set_hostnames (h : option (list string)) (c : sdap_sudo_ctx) :=
  mk_sudo_ctx h (ip_addr c) (include_netgroups c)
              (include_regexp c) (use_host_filter c) (full_refresh_done c).

Definition set_ip_addr (a : option (list string)) (c : sdap_sudo_ctx) :=
  mk_sudo_ctx (hostnames c) a (include_netgroups c)
              (include_regexp c) (use_host_filter c) (full_refresh_done c).

(** [struct be_sudo_req]: the request type and the rules asked for. *)
Record be_sudo_req := mk_sudo_req {
  type : Z;
  rules : list string
}.

(** The last argument of [sdap_handler_done]. *)
Inductive errstr_t :=
| str_NULL
| str_lit (s : string)
| str_strerror (e : errno_t).

(** A callback registered with [tevent_req_set_callback], with its
    private data. *)
Inductive callback :=
| cb_get_hostinfo_done
| cb_reply (be_req : be_sudo_req).

(** Calls that leave this file. *)
Inductive event :=
| ev_ldap_get_sudo_options
| ev_get_hostinfo_send
| ev_get_hostinfo_recv
| ev_ptask_setup
| ev_full_refresh_send
| ev_rules_refresh_send (rules : list string)
| ev_full_refresh_recv
| ev_rules_refresh_recv
| ev_set_callback (fn : callback)
| ev_handler_done (dp_error : Z) (errnum : errno_t) (errstr : errstr_t).

(** What the collaborators answer.  A [*_send] function answers [true]
    when it returns a request and [false] when it returns [NULL]. *)
Record collaborators := mk_collaborators {
  talloc_zero : bool;
  ldap_get_sudo_options : errno_t * (bool * bool * bool);
  sdap_sudo_get_hostinfo_send : bool;
  sdap_sudo_get_hostinfo_recv :
    errno_t * (option (list string) * option (list string));
  sdap_sudo_ptask_setup : errno_t;
  be_is_offline : bool;
  sdap_sudo_full_refresh_send : bool;
  sdap_sudo_rules_refresh_send : bool;
  sdap_sudo_full_refresh_recv : errno_t * Z;
  sdap_sudo_rules_refresh_recv : errno_t * Z * bool
}.

(** ** The world and its monad *)

Record world := mk_world {
  sudo_ctx : option sdap_sudo_ctx;
  pending : list callback;
  log : list event
}.

Definition world0 : world := mk_world None [] [].

Definition M (A : Type) : Type := world -> A * world.

Definition ret {A} (a : A) : M A := fun w => (a, w).

Definition bind {A B} (m : M A) (k : A -> M B) : M B :=
  fun w => let (a, w') := m w in k a w'.

Declare Scope sudo_scope.
Delimit Scope sudo_scope with sudo.
Notation "x <- m ;; k" := (bind m (fun x => k))
  (at level 61, m at next level, right associativity) : sudo_scope.
Notation "' p <- m ;; k" := (bind m (fun x => let 'p := x in k))
  (at level 61, p pattern, m at next level, right associativity) : sudo_scope.
Notation "m ;; k" := (bind m (fun _ => k))
  (at level 61, right associativity) : sudo_scope.
Local Open Scope sudo_scope.

Definition emit (e : event) : M unit :=
  fun w => (tt, mk_world (sudo_ctx w) (pending w) (log w ++ [e])).

Definition store (f : sdap_sudo_ctx -> sdap_sudo_ctx) : M unit :=
  fun w => (tt, mk_world (option_map f (sudo_ctx w)) (pending w) (log w)).

Definition talloc_new_ctx : M unit :=
  fun w => (tt, mk_world (Some zero_ctx) (pending w) (log w)).

Definition talloc_free_ctx : M unit :=
  fun w => (tt, mk_world None (pending w) (log w)).

Definition tevent_req_set_callback (fn : callback) : M unit :=
  fun w => (tt, mk_world (sudo_ctx w) (pending w ++ [fn])
                         (log w ++ [ev_set_callback fn])).

Definition sdap_handler_done (dp_error : Z) (errnum : errno_t)
    (errstr : errstr_t) : M unit :=
  emit (ev_handler_done dp_error errnum errstr).

Definition when (b : bool) (m : M unit) : M unit :=
  if b then m else ret tt.

(** ** The functions of the file *)

Section Provider.

Variable env : collaborators.

Definition sdap_sudo_shutdown : M unit :=
  sdap_handler_done DP_ERR_OK EOK str_NULL.

Definition call_ptask_setup : M errno_t :=
  emit ev_ptask_setup ;; ret (sdap_sudo_ptask_setup env).

Definition call_get_sudo_options : M errno_t :=
  emit ev_ldap_get_sudo_options ;;
  let '(r, (uhf, re, ng)) := ldap_get_sudo_options env in
  store (set_use_host_filter uhf) ;;
  store (set_include_regexp re) ;;
  store (set_include_netgroups ng) ;;
  ret r.

Definition sdap_sudo_init : M errno_t :=
  if negb (talloc_zero env) then ret ENOMEM
  else
    talloc_new_ctx ;;
    store (set_full_refresh_done false) ;;
    r <- call_get_sudo_options ;;
    if negb (r =? EOK) then
      (* done: *) talloc_free_ctx ;; ret r
    else
      emit ev_get_hostinfo_send ;;
      (if negb (sdap_sudo_get_hostinfo_send env) then
         store (set_use_host_filter false) ;;
         _ <- call_ptask_setup ;;
         ret tt
       else
         tevent_req_set_callback cb_get_hostinfo_done) ;;
      ret EOK.

Definition sdap_sudo_get_hostinfo_done : M unit :=
  emit ev_get_hostinfo_recv ;;
  let '(r, (hn, ip)) := sdap_sudo_get_hostinfo_recv env in
  when (negb (r =? EOK)) (store (set_use_host_filter false)) ;;
  store (set_hostnames hn) ;;
  store (set_ip_addr ip) ;;
  _ <- call_ptask_setup ;;
  ret tt.

Definition sdap_sudo_reply (sudo_req : be_sudo_req) : M unit :=
  '(dp_error, r) <-
    (if type sudo_req =? BE_REQ_SUDO_FULL then
       emit ev_full_refresh_recv ;;
       let '(r, dp_error) := sdap_sudo_full_refresh_recv env in
       ret (dp_error, r)
     else if type sudo_req =? BE_REQ_SUDO_RULES then
       emit ev_rules_refresh_recv ;;
       let '(r, dp_error, deleted) := sdap_sudo_rules_refresh_recv env in
       ret (dp_error, if (r =? EOK) && deleted then ENOENT else r)
     else
       ret (DP_ERR_FATAL, ERR_INTERNAL)) ;;
  sdap_handler_done dp_error r (str_strerror r).

Definition sdap_sudo_handler (sudo_req : be_sudo_req) : M unit :=
  let fail (r : errno_t) := sdap_handler_done DP_ERR_FATAL r str_NULL in
  let sent (req : bool) :=
    if negb req then fail ENOMEM
    else tevent_req_set_callback (cb_reply sudo_req) in
  if be_is_offline env then
    sdap_handler_done DP_ERR_OFFLINE EAGAIN (str_lit "Offline"%string)
  else if type sudo_req =? BE_REQ_SUDO_FULL then
    emit ev_full_refresh_send ;;
    sent (sdap_sudo_full_refresh_send env)
  else if type sudo_req =? BE_REQ_SUDO_RULES then
    emit (ev_rules_refresh_send (rules sudo_req)) ;;
    sent (sdap_sudo_rules_refresh_send env)
  else
    fail EINVAL.

(** ** The event loop

    tevent calls a registered callback once, when its request completes.
    No callback of this file registers another one, so one pass over the
    queue empties it. *)

Definition fire (fn : callback) : M unit :=
  match fn with
  | cb_get_hostinfo_done => sdap_sudo_get_hostinfo_done
  | cb_reply be_req => sdap_sudo_reply be_req
  end.

Definition tevent_loop : M unit :=
  fun w =>
    (tt, fold_left (fun w' fn => snd (fire fn w')) (pending w)
                   (mk_world (sudo_ctx w) [] (log w))).

(** A request from arrival to the end of its completion callback. *)
Definition serve (sudo_req : be_sudo_req) : M unit :=
  sdap_sudo_handler sudo_req ;; tevent_loop.

(** Start-up from the call of [sdap_sudo_init] to the end of the
    host information callback, when one was registered. *)
Definition startup : M errno_t :=
  r <- sdap_sudo_init ;; tevent_loop ;; ret r.

End Provider.

(** ** Observations on a world *)

Definition is_arm (e : event) : bool :=
  match e with ev_ptask_setup => true | _ => false end.

Definition is_fetch (e : event) : bool :=
  match e with ev_get_hostinfo_send => true | _ => false end.

Definition is_dispatch (e : event) : bool :=
  match e with
  | ev_full_refresh_send | ev_rules_refresh_send _ => true
  | _ => false
  end.

Definition is_reply (e : event) : bool :=
  match e with ev_handler_done _ _ _ => true | _ => false end.

Definition count (p : event -> bool) (l : list event) : nat :=
  List.length (filter p l).

(** The flag as a request would read it; a freed context filters nothing. *)
Definition host_filter_on (w : world) : bool :=
  match sudo_ctx w with
  | Some c => use_host_filter c
  | None => false
  end.

(** The option as [ldap_get_sudo_options] loaded it. *)
Definition configured_host_filter (env : collaborators) : bool :=
  let '(_, (uhf, _, _)) := ldap_get_sudo_options env in uhf.

(** Host names or addresses are there. *)
Definition identity_present (hn ip : option (list string)) : bool :=
  match hn, ip with
  | None, None => false
  | _, _ => true
  end.

Definition host_identity_present (c : sdap_sudo_ctx) : bool :=
  identity_present (hostnames c) (ip_addr c).

(** What the host information request hands over when it completes. *)
Definition fetched_hostnames (env : collaborators) : option (list string) :=
  fst (snd (sdap_sudo_get_hostinfo_recv env)).

Definition fetched_ip_addr (env : collaborators) : option (list string) :=
  snd (snd (sdap_sudo_get_hostinfo_recv env)).

(** The entry points of the file, as the back end and tevent call them once
    [sdap_sudo_init] has returned.  Each call comes with the answers the
    collaborators give during it. *)
Inductive module_op :=
| op_get_hostinfo_done
| op_handler (be_req : be_sudo_req)
| op_reply (be_req : be_sudo_req)
| op_shutdown
| op_tevent_loop.

Definition run_op (env : collaborators) (o : module_op) : M unit :=
  match o with
  | op_get_hostinfo_done => sdap_sudo_get_hostinfo_done env
  | op_handler r => sdap_sudo_handler env r
  | op_reply r => sdap_sudo_reply env r
  | op_shutdown => sdap_sudo_shutdown
  | op_tevent_loop => tevent_loop env
  end.

Definition run_ops (l : list (collaborators * module_op)) (w : world) : world :=
  fold_left (fun w' eo => snd (run_op (fst eo) (snd eo) w')) l w.

(** Requests served one after the other, each to its reply. *)
Definition serve_all (l : list (collaborators * be_sudo_req)) (w : world)
    : world :=
  fold_left (fun w' er => snd (serve (fst er) (snd er) w')) l w.

(** Calls that belong to start-up: loading the options, asking for the
    host information and setting up the periodic task. *)
Definition is_startup_call (e : event) : bool :=
  match e with
  | ev_ldap_get_sudo_options | ev_get_hostinfo_send
  | ev_get_hostinfo_recv | ev_ptask_setup => true
  | _ => false
  end.


(** The context [sdap_sudo_init] leaves behind when it returns [EOK]. *)
Definition init_ctx (env : collaborators) : sdap_sudo_ctx :=
  let '(_, (uhf, re, ng)) := ldap_get_sudo_options env in
  mk_sudo_ctx None None ng re
              (uhf && sdap_sudo_get_hostinfo_send env) false.


(** ** Sample collaborators, used to run the code on concrete inputs *)

Definition env_ok : collaborators :=
  mk_collaborators true (EOK, (true, false, true)) true
    (EOK, (Some ["h1"%string], Some ["192.0.2.1"%string])) EOK
    false true true (EOK, DP_ERR_OK) (EOK, DP_ERR_OK, true).

(** The host information request cannot be created. *)
Definition env_nosend : collaborators :=
  mk_collaborators true (EOK, (true, false, true)) false
    (EOK, (None, None)) ENOMEM
    false true true (EOK, DP_ERR_OK) (EOK, DP_ERR_OK, false).

(** The host information request completes with an error. *)
Definition env_recv_fails : collaborators :=
  mk_collaborators true (EOK, (true, false, true)) true
    (5, (None, None)) EOK
    false true true (EOK, DP_ERR_OK) (EOK, DP_ERR_OK, false).

(** The options cannot be read. *)
Definition env_noopts : collaborators :=
  mk_collaborators true (EINVAL, (true, true, true)) true
    (EOK, (Some ["h1"%string], None)) EOK
    false true true (EOK, DP_ERR_OK) (EOK, DP_ERR_OK, false).

Definition env_offline : collaborators :=
  mk_collaborators true (EOK, (true, false, true)) true
    (EOK, (Some ["h1"%string], None)) EOK
    true true true (EOK, DP_ERR_OK) (EOK, DP_ERR_OK, false).

Definition req_full : be_sudo_req := mk_sudo_req BE_REQ_SUDO_FULL [].
Definition req_rules : be_sudo_req :=
  mk_sudo_req BE_REQ_SUDO_RULES ["rule1"%string].
Definition req_unknown : be_sudo_req := mk_sudo_req 0x0009 [].

(** No memory for the context. *)
Definition env_noalloc : collaborators :=
  mk_collaborators false (EOK, (true, false, true)) true
    (EOK, (Some ["h1"%string], None)) EOK
    false true true (EOK, DP_ERR_OK) (EOK, DP_ERR_OK, false).

(** No refresh request can be created. *)
Definition env_dispatch_fails : collaborators :=
  mk_collaborators true (EOK, (true, false, true)) true
    (EOK, (Some ["h1"%string], None)) EOK
    false false false (EOK, DP_ERR_OK) (EOK, DP_ERR_OK, false).

(** The refreshes end with an error; the rules refresh also reports a
    deletion. *)
Definition env_refresh_fails : collaborators :=
  mk_collaborators true (EOK, (true, false, true)) true
    (EOK, (Some ["h1"%string], None)) EOK
    false true true (5, DP_ERR_FATAL) (110, DP_ERR_OFFLINE, true).

(** ** Proof support *)

Ltac unfold_code :=
  unfold startup, serve, tevent_loop, fire, sdap_sudo_init,
    sdap_sudo_get_hostinfo_done, sdap_sudo_reply, sdap_sudo_handler,
    sdap_sudo_shutdown, call_ptask_setup, call_get_sudo_options,
    sdap_handler_done, tevent_req_set_callback, talloc_new_ctx,
    talloc_free_ctx, when, store, emit, bind, ret in *.

Ltac split_code :=
  repeat match goal with
    | |- context [if ?b then _ else _] => destruct b eqn:?; cbn
    | |- context [match ?p with pair _ _ => _ end] => destruct p eqn:?; cbn
    end.

Ltac open_env env :=
  destruct env as [tz [ro [[uhf re] ng]] hs [rr [hn ip]] ps off fs rs
                   [fr fdp] [[rlr rdp] del]];
  cbn [talloc_zero ldap_get_sudo_options sdap_sudo_get_hostinfo_send
       sdap_sudo_get_hostinfo_recv sdap_sudo_ptask_setup be_is_offline
       sdap_sudo_full_refresh_send sdap_sudo_rules_refresh_send
       sdap_sudo_full_refresh_recv sdap_sudo_rules_refresh_recv fst snd] in *.

Arguments count : simpl never.

Lemma count_app p l1 l2 : count p (l1 ++ l2) = (count p l1 + count p l2)%nat.
Proof. unfold count. now rewrite filter_app, length_app. Qed.

Lemma count_snoc p l e :
  count p (l ++ [e]) = (count p l + if p e then 1 else 0)%nat.
Proof. rewrite count_app. unfold count. simpl. now destruct (p e). Qed.

Lemma count_zero_not_In p l e : count p l = 0%nat -> p e = true -> ~ In e l.
Proof.
  unfold count. intros Hc He Hin.
  assert (Hf : In e (filter p l)) by (apply filter_In; auto).
  destruct (filter p l); [contradiction | discriminate].
Qed.

(** *** What each entry point does to the world *)

(** The handler either replies at once and registers nothing, or registers
    [sdap_sudo_reply] and does not reply.  It never touches the context. *)
Lemma handler_shape env r w :
  let w' := snd (sdap_sudo_handler env r w) in
  sudo_ctx w' = sudo_ctx w /\
  ((pending w' = pending w /\
    count is_reply (log w') = S (count is_reply (log w)))
   \/
   (pending w' = pending w ++ [cb_reply r] /\
    count is_reply (log w') = count is_reply (log w))).
Proof.
  open_env env. unfold_code. cbn. split_code; (split; [reflexivity|]);
    repeat rewrite count_snoc; cbn;
    first [ left; split; [reflexivity | lia]
          | right; split; [reflexivity | lia] ].
Qed.

(** The completion callback replies exactly once, whatever the request type
    and the result of the operation. *)
Lemma reply_shape env r w :
  let w' := snd (sdap_sudo_reply env r w) in
  sudo_ctx w' = sudo_ctx w /\ pending w' = pending w /\
  count is_reply (log w') = S (count is_reply (log w)).
Proof.
  open_env env. unfold_code. cbn. split_code; repeat split; auto;
    repeat rewrite count_snoc; cbn; lia.
Qed.

Lemma shutdown_shape w :
  let w' := snd (sdap_sudo_shutdown w) in
  sudo_ctx w' = sudo_ctx w /\ pending w' = pending w.
Proof. unfold_code. cbn. auto. Qed.

(** The host information callback only ever clears the flag. *)
Lemma hostinfo_done_flag env w :
  host_filter_on (snd (sdap_sudo_get_hostinfo_done env w)) = true ->
  host_filter_on w = true.
Proof.
  unfold host_filter_on. unfold_code.
  destruct (sdap_sudo_get_hostinfo_recv env) as [r [hn ip]].
  destruct w as [[c|] q l]; cbn; destruct (r =? EOK); cbn; auto.
  discriminate.
Qed.

Lemma fire_flag env fn w :
  host_filter_on (snd (fire env fn w)) = true -> host_filter_on w = true.
Proof.
  destruct fn as [|r]; cbn [fire].
  - apply hostinfo_done_flag.
  - unfold host_filter_on.
    destruct (reply_shape env r w) as [-> _]. auto.
Qed.

Lemma fold_fire_flag env q w :
  host_filter_on (fold_left (fun w' fn => snd (fire env fn w')) q w) = true ->
  host_filter_on w = true.
Proof.
  revert w. induction q as [|fn q IH]; cbn; intros w H; auto.
  apply IH in H. now apply fire_flag in H.
Qed.

Lemma run_op_flag env o w :
  host_filter_on (snd (run_op env o w)) = true -> host_filter_on w = true.
Proof.
  destruct o as [|r|r| |]; cbn [run_op].
  - apply hostinfo_done_flag.
  - unfold host_filter_on. destruct (handler_shape env r w) as [-> _]. auto.
  - unfold host_filter_on. destruct (reply_shape env r w) as [-> _]. auto.
  - auto.
  - unfold tevent_loop. cbn [snd]. intros H. now apply fold_fire_flag in H.
Qed.

(** With an empty callback queue, serving a request leaves the context as
    it is, leaves the queue empty and replies once. *)
Lemma serve_shape env r c l :
  let w' := snd (serve env r (mk_world c [] l)) in
  sudo_ctx w' = c /\ pending w' = [] /\
  count is_reply (log w') = S (count is_reply l).
Proof.
  unfold serve, bind.
  destruct (sdap_sudo_handler env r (mk_world c [] l)) as [[] w1] eqn:E.
  pose proof (handler_shape env r (mk_world c [] l)) as H.
  rewrite E in H. cbn in H. destruct H as [Hc [[Hq Hn] | [Hq Hn]]].
  - unfold tevent_loop. rewrite Hq. cbn. auto.
  - unfold tevent_loop. rewrite Hq. cbn.
    destruct (reply_shape env r (mk_world (sudo_ctx w1) [] (log w1)))
      as [H1 [H2 H3]].
    cbn in H1, H2, H3. rewrite H1, H2, H3. auto.
Qed.

Lemma serve_all_ctx reqs c l :
  sudo_ctx (serve_all reqs (mk_world c [] l)) = c /\
  pending (serve_all reqs (mk_world c [] l)) = [].
Proof.
  revert l. induction reqs as [|[env r] reqs IH]; intros l; cbn; auto.
  destruct (serve_shape env r c l) as [Hc [Hq _]].
  destruct (snd (serve env r (mk_world c [] l))) as [c' q' l'].
  cbn in Hc, Hq. subst. apply IH.
Qed.

(** ** The request handler *)

(** C4.  While the back end is offline, [sdap_sudo_handler] answers at once
    with [DP_ERR_OFFLINE] and [EAGAIN]: that reply is the only thing it does,
    so no refresh is sent and no callback is registered, whatever the
    request. *)
Theorem handler_offline_short_circuit env r w :
  be_is_offline env = true ->
  sdap_sudo_handler env r w =
    (tt, mk_world (sudo_ctx w) (pending w)
           (log w ++ [ev_handler_done DP_ERR_OFFLINE EAGAIN
                        (str_lit "Offline"%string)]))
  /\ (forall c l,
        count is_dispatch (log (snd (serve env r (mk_world c [] l))))
        = count is_dispatch l).
Proof.
  intros Hoff.
  assert (H : sdap_sudo_handler env r w =
    (tt, mk_world (sudo_ctx w) (pending w)
           (log w ++ [ev_handler_done DP_ERR_OFFLINE EAGAIN
                        (str_lit "Offline"%string)]))).
  { unfold sdap_sudo_handler. rewrite Hoff. reflexivity. }
  split; [exact H|].
  intros c l. unfold serve, bind, sdap_sudo_handler. rewrite Hoff.
  cbn. now rewrite count_snoc, Nat.add_0_r.
Qed.

Lemma handler_offline_short_circuit_witness :
  be_is_offline env_offline = true /\
  log (snd (sdap_sudo_handler env_offline req_full world0)) =
    [ev_handler_done DP_ERR_OFFLINE EAGAIN (str_lit "Offline"%string)].
Proof.
  split; [reflexivity|].
  destruct (handler_offline_short_circuit env_offline req_full world0
              eq_refl) as [H _].
  rewrite H. reflexivity.
Defined.

(** C9.  The offline test comes first: while offline the handler does the
    same thing for any two requests, so the request is not looked at, and
    the only reply is the offline one, never a [DP_ERR_FATAL] one, also for
    a request of unknown type. *)
Theorem offline_check_precedes_type_check env r1 r2 w :
  be_is_offline env = true ->
  sdap_sudo_handler env r1 w = sdap_sudo_handler env r2 w /\
  log (snd (serve env r1 world0)) =
    [ev_handler_done DP_ERR_OFFLINE EAGAIN (str_lit "Offline"%string)] /\
  (forall e s,
      ~ In (ev_handler_done DP_ERR_FATAL e s)
           (log (snd (serve env r1 world0)))).
Proof.
  intros Hoff.
  assert (L : log (snd (serve env r1 world0)) =
    [ev_handler_done DP_ERR_OFFLINE EAGAIN (str_lit "Offline"%string)]).
  { unfold serve, bind, sdap_sudo_handler. rewrite Hoff. reflexivity. }
  split; [|split].
  - unfold sdap_sudo_handler. now rewrite Hoff.
  - exact L.
  - intros e s Hin. rewrite L in Hin.
    destruct Hin as [Hin | []]. discriminate Hin.
Qed.

Lemma offline_check_precedes_type_check_witness :
  be_is_offline env_offline = true /\
  sdap_sudo_handler env_offline req_unknown world0 =
  sdap_sudo_handler env_offline req_full world0.
Proof.
  split; [reflexivity|].
  exact (proj1 (offline_check_precedes_type_check env_offline req_unknown
                  req_full world0 eq_refl)).
Defined.

(** C2, as stated, fails: online, a request whose type is neither
    [BE_REQ_SUDO_FULL] nor [BE_REQ_SUDO_RULES] is not answered with
    [ERR_INTERNAL]. *)
Lemma unknown_type_reply_is_not_ERR_INTERNAL :
  be_is_offline env_ok = false /\
  type req_unknown <> BE_REQ_SUDO_FULL /\
  type req_unknown <> BE_REQ_SUDO_RULES /\
  ~ (exists s, In (ev_handler_done DP_ERR_FATAL ERR_INTERNAL s)
                  (log (snd (serve env_ok req_unknown world0)))).
Proof.
  repeat split; try discriminate.
  intros [s [H | []]]. discriminate H.
Qed.

(** C2, amended.  Online, a request whose type is neither
    [BE_REQ_SUDO_FULL] nor [BE_REQ_SUDO_RULES] is answered at once with
    [DP_ERR_FATAL] and [EINVAL]; nothing is sent and no callback is
    registered. *)
Theorem handler_unknown_type env r w :
  be_is_offline env = false ->
  type r <> BE_REQ_SUDO_FULL ->
  type r <> BE_REQ_SUDO_RULES ->
  sdap_sudo_handler env r w =
    (tt, mk_world (sudo_ctx w) (pending w)
           (log w ++ [ev_handler_done DP_ERR_FATAL EINVAL str_NULL])).
Proof.
  intros Hon Hf Hr. unfold sdap_sudo_handler. rewrite Hon.
  apply Z.eqb_neq in Hf, Hr. rewrite Hf, Hr. reflexivity.
Qed.

Lemma handler_unknown_type_witness :
  (be_is_offline env_ok = false /\
   type req_unknown <> BE_REQ_SUDO_FULL /\
   type req_unknown <> BE_REQ_SUDO_RULES) /\
  sdap_sudo_handler env_ok req_unknown world0 =
    (tt, mk_world None [] [ev_handler_done DP_ERR_FATAL EINVAL str_NULL]).
Proof.
  split; [repeat split; discriminate|].
  apply (handler_unknown_type env_ok req_unknown world0);
    [reflexivity | discriminate | discriminate].
Defined.

(** C3.  A request is answered exactly once.  [sdap_sudo_handler] either
    calls [sdap_handler_done] once and registers nothing (offline, unknown
    type, [NULL] request) or registers [sdap_sudo_reply] and does not
    answer; [sdap_sudo_reply] calls [sdap_handler_done] once; so from
    arrival to the end of its callback a request gets one reply. *)
Theorem reply_exactly_once env r w :
  (let w' := snd (sdap_sudo_handler env r w) in
   (pending w' = pending w /\
    count is_reply (log w') = S (count is_reply (log w)))
   \/
   (pending w' = pending w ++ [cb_reply r] /\
    count is_reply (log w') = count is_reply (log w)))
  /\ count is_reply (log (snd (sdap_sudo_reply env r w)))
     = S (count is_reply (log w))
  /\ count is_reply
       (log (snd (serve env r (mk_world (sudo_ctx w) [] (log w)))))
     = S (count is_reply (log w)).
Proof.
  split; [|split].
  - apply handler_shape.
  - apply reply_shape.
  - apply serve_shape.
Qed.

(** C5.  For a [BE_REQ_SUDO_RULES] request whose refresh ends with [EOK]
    and [deleted] set, [sdap_sudo_reply] answers with [ENOENT], under the
    category the refresh gave. *)
Theorem rules_deleted_is_ENOENT env r w dp :
  type r = BE_REQ_SUDO_RULES ->
  sdap_sudo_rules_refresh_recv env = (EOK, dp, true) ->
  sdap_sudo_reply env r w =
    (tt, mk_world (sudo_ctx w) (pending w)
           (log w ++ [ev_rules_refresh_recv;
                      ev_handler_done dp ENOENT (str_strerror ENOENT)])).
Proof.
  intros Ht Hr. unfold sdap_sudo_reply. rewrite Ht, Hr.
  unfold_code. cbn. now rewrite <- app_assoc.
Qed.

Lemma rules_deleted_is_ENOENT_witness :
  (type req_rules = BE_REQ_SUDO_RULES /\
   sdap_sudo_rules_refresh_recv env_ok = (EOK, DP_ERR_OK, true)) /\
  log (snd (sdap_sudo_reply env_ok req_rules world0)) =
    [ev_rules_refresh_recv;
     ev_handler_done DP_ERR_OK ENOENT (str_strerror ENOENT)].
Proof.
  split; [split; reflexivity|].
  rewrite (rules_deleted_is_ENOENT env_ok req_rules world0 DP_ERR_OK
             eq_refl eq_refl).
  reflexivity.
Defined.

(** ** Initialisation *)

(** C8.  When [ldap_get_sudo_options] fails, [sdap_sudo_init] returns its
    error after that one call: the context is freed, no host information
    request is sent, the periodic task is not set up and no callback is
    registered. *)
Theorem init_options_failure env w r :
  talloc_zero env = true ->
  fst (ldap_get_sudo_options env) = r ->
  r <> EOK ->
  sdap_sudo_init env w =
    (r, mk_world None (pending w) (log w ++ [ev_ldap_get_sudo_options]))
  /\ count is_fetch (log (snd (startup env world0))) = 0%nat
  /\ count is_arm (log (snd (startup env world0))) = 0%nat.
Proof.
  intros Ha Ho Hr. apply Z.eqb_neq in Hr.
  open_env env. subst. unfold_code. cbn. rewrite Hr. cbn. auto.
Qed.

Lemma init_options_failure_witness :
  (talloc_zero env_noopts = true /\
   fst (ldap_get_sudo_options env_noopts) = EINVAL /\ EINVAL <> EOK) /\
  sdap_sudo_init env_noopts world0 =
    (EINVAL, mk_world None [] [ev_ldap_get_sudo_options]).
Proof.
  split; [repeat split; discriminate|].
  apply (init_options_failure env_noopts world0 EINVAL);
    [reflexivity | reflexivity | discriminate].
Defined.

(** C6.  When the host information cannot be had, because the request
    cannot be created or because it completes with an error, start-up still
    returns [EOK] with the context in place and [use_host_filter] false,
    whatever the options said; in the first case the flag is already false
    when [sdap_sudo_init] returns; requests served afterwards find it
    false. *)
Theorem hostinfo_failure_disables_host_filter env c0 l0 :
  talloc_zero env = true ->
  fst (ldap_get_sudo_options env) = EOK ->
  sdap_sudo_get_hostinfo_send env = false \/
  fst (sdap_sudo_get_hostinfo_recv env) <> EOK ->
  let w0 := mk_world c0 [] l0 in
  fst (startup env w0) = EOK /\
  (sdap_sudo_get_hostinfo_send env = false ->
   host_filter_on (snd (sdap_sudo_init env w0)) = false) /\
  (forall reqs, exists c,
      sudo_ctx (serve_all reqs (snd (startup env w0))) = Some c /\
      use_host_filter c = false).
Proof.
  intros Ha Ho Hfail w0. subst w0.
  assert (S : fst (startup env (mk_world c0 [] l0)) = EOK /\
              (sdap_sudo_get_hostinfo_send env = false ->
               host_filter_on (snd (sdap_sudo_init env (mk_world c0 [] l0)))
               = false) /\
              pending (snd (startup env (mk_world c0 [] l0))) = [] /\
              exists c, sudo_ctx (snd (startup env (mk_world c0 [] l0)))
                        = Some c /\ use_host_filter c = false).
  { open_env env. subst. unfold host_filter_on. unfold_code. cbn.
    destruct hs; cbn.
    - destruct Hfail as [Hs | Hr]; [discriminate|].
      apply Z.eqb_neq in Hr. rewrite Hr. cbn.
      repeat split; [discriminate | eauto].
    - repeat split; eauto. }
  destruct S as [S1 [S2 [S3 [c [S4 S5]]]]].
  split; [exact S1 | split; [exact S2|]].
  intros reqs. exists c.
  destruct (snd (startup env (mk_world c0 [] l0))) as [c1 q1 l1].
  cbn in S3, S4. subst.
  destruct (serve_all_ctx reqs (Some c) l1) as [-> _]. auto.
Qed.

Lemma hostinfo_failure_disables_host_filter_witness :
  (talloc_zero env_recv_fails = true /\
   fst (ldap_get_sudo_options env_recv_fails) = EOK /\
   (sdap_sudo_get_hostinfo_send env_recv_fails = false \/
    fst (sdap_sudo_get_hostinfo_recv env_recv_fails) <> EOK)) /\
  configured_host_filter env_recv_fails = true /\
  fst (startup env_recv_fails world0) = EOK.
Proof.
  split; [repeat split; right; discriminate|].
  split; [reflexivity|].
  refine (proj1 (hostinfo_failure_disables_host_filter env_recv_fails
                   None [] eq_refl eq_refl _)).
  right; discriminate.
Defined.

(** C1, as stated, fails: when the host information request is created,
    [sdap_sudo_init] itself does not call [sdap_sudo_ptask_setup]. *)
Lemma init_does_not_arm_when_fetch_starts :
  sdap_sudo_get_hostinfo_send env_ok = true /\
  fst (sdap_sudo_init env_ok world0) = EOK /\
  count is_arm (log (snd (sdap_sudo_init env_ok world0))) <> 1%nat.
Proof. repeat split. discriminate. Qed.

(** C1, amended.  Once the options are loaded, start-up calls
    [sdap_sudo_ptask_setup] exactly once: in [sdap_sudo_init] itself when
    the host information request cannot be created (and then no callback is
    registered), and otherwise not in [sdap_sudo_init] but in the callback
    it registers, [sdap_sudo_get_hostinfo_done], which makes the call
    whether the request succeeded or not.  Whatever the call returns,
    [sdap_sudo_init] returns [EOK]. *)
Theorem scheduler_armed_once env w :
  talloc_zero env = true ->
  fst (ldap_get_sudo_options env) = EOK ->
  let w1 := snd (sdap_sudo_init env w) in
  fst (sdap_sudo_init env w) = EOK /\
  (if sdap_sudo_get_hostinfo_send env
   then count is_arm (log w1) = count is_arm (log w) /\
        pending w1 = pending w ++ [cb_get_hostinfo_done]
   else count is_arm (log w1) = S (count is_arm (log w)) /\
        pending w1 = pending w) /\
  (forall w',
      count is_arm (log (snd (sdap_sudo_get_hostinfo_done env w')))
      = S (count is_arm (log w'))) /\
  count is_arm
    (log (snd (startup env (mk_world (sudo_ctx w) [] (log w)))))
  = S (count is_arm (log w)).
Proof.
  intros Ha Ho w1. subst w1. open_env env. subst.
  unfold_code. cbn.
  split; [now destruct hs | split; [| split]].
  - destruct hs; cbn; repeat rewrite count_snoc; cbn; split; auto; lia.
  - intros w'. destruct (rr =? EOK); cbn;
      repeat rewrite count_snoc; cbn; lia.
  - destruct hs; cbn; [destruct (rr =? EOK); cbn|];
      repeat rewrite count_snoc; cbn; lia.
Qed.

Lemma scheduler_armed_once_witness :
  (talloc_zero env_nosend = true /\
   fst (ldap_get_sudo_options env_nosend) = EOK) /\
  sdap_sudo_ptask_setup env_nosend <> EOK /\
  fst (sdap_sudo_init env_nosend world0) = EOK.
Proof.
  split; [split; reflexivity|].
  split; [discriminate|].
  exact (proj1 (scheduler_armed_once env_nosend world0 eq_refl eq_refl)).
Defined.

(** C7, as stated, fails: when [sdap_sudo_init] returns with the host
    information request under way, [use_host_filter] is as configured while
    [hostnames] and [ip_addr] are still [NULL]; a request handled before the
    callback runs is dispatched with the context in that state. *)
Lemma host_filter_on_before_identity_arrives :
  exists c,
    sudo_ctx (snd (sdap_sudo_init env_ok world0)) = Some c /\
    sudo_ctx (snd (sdap_sudo_handler env_ok req_full
                     (snd (sdap_sudo_init env_ok world0)))) = Some c /\
    In ev_full_refresh_send
       (log (snd (sdap_sudo_handler env_ok req_full
                    (snd (sdap_sudo_init env_ok world0))))) /\
    ~ (use_host_filter c = true -> host_identity_present c = true).
Proof.
  eexists. split; [reflexivity|]. split; [reflexivity|].
  split; [cbn; tauto|].
  cbn. intros H. specialize (H eq_refl). discriminate H.
Qed.

(** C7, amended.  Once start-up is over, that is [sdap_sudo_init] has
    returned and the callback it may have registered has run, and after any
    requests served since, [use_host_filter] set means that the host
    information request completed with [EOK] and that [hostnames] and
    [ip_addr] are what it handed over; so the host identity is there
    provided a successful request hands one over. *)
Theorem host_filter_needs_fetched_identity env reqs c :
  (fst (sdap_sudo_get_hostinfo_recv env) = EOK ->
   identity_present (fetched_hostnames env) (fetched_ip_addr env) = true) ->
  sudo_ctx (serve_all reqs (snd (startup env world0))) = Some c ->
  use_host_filter c = true ->
  sdap_sudo_get_hostinfo_send env = true /\
  fst (sdap_sudo_get_hostinfo_recv env) = EOK /\
  hostnames c = fetched_hostnames env /\
  ip_addr c = fetched_ip_addr env /\
  host_identity_present c = true.
Proof.
  intros Hcontract Hc Hflag.
  assert (S : pending (snd (startup env world0)) = [] /\
              (sudo_ctx (snd (startup env world0)) = Some c ->
               sdap_sudo_get_hostinfo_send env = true /\
               fst (sdap_sudo_get_hostinfo_recv env) = EOK /\
               hostnames c = fetched_hostnames env /\
               ip_addr c = fetched_ip_addr env)).
  { unfold fetched_hostnames, fetched_ip_addr. clear Hcontract Hc.
    open_env env. unfold_code. cbn.
    destruct tz; cbn; [|split; [auto | discriminate]].
    destruct (ro =? EOK); cbn; [|split; [auto | discriminate]].
    destruct hs; cbn.
    - destruct (rr =? EOK) eqn:E; cbn; (split; [auto|]);
        intros H; injection H as <-; cbn in *.
      + apply Z.eqb_eq in E. auto.
      + discriminate.
    - split; [auto|]. intros H; injection H as <-. discriminate. }
  destruct S as [Hq Hs].
  destruct (snd (startup env world0)) as [c1 q1 l1]. cbn in Hq, Hs. subst q1.
  destruct (serve_all_ctx reqs c1 l1) as [Hc1 _].
  rewrite Hc in Hc1. symmetry in Hc1.
  destruct (Hs Hc1) as [H1 [H2 [H3 H4]]].
  repeat split; auto.
  unfold host_identity_present. rewrite H3, H4. auto.
Qed.

Lemma host_filter_needs_fetched_identity_witness :
  ((fst (sdap_sudo_get_hostinfo_recv env_ok) = EOK ->
    identity_present (fetched_hostnames env_ok) (fetched_ip_addr env_ok)
    = true) /\
   exists c,
     sudo_ctx (serve_all [(env_ok, req_rules)] (snd (startup env_ok world0)))
     = Some c /\
     use_host_filter c = true /\ host_identity_present c = true).
Proof.
  split; [reflexivity|].
  eexists. split; [reflexivity|]. split; [reflexivity|].
  eapply (host_filter_needs_fetched_identity env_ok [(env_ok, req_rules)]);
    reflexivity.
Defined.

(** C10.  After the options are loaded nothing in the file turns
    [use_host_filter] on: when [sdap_sudo_init] returns with the flag set,
    the loaded option was set; and from a state where the flag is off, no
    sequence of calls of the file's entry points (the host information
    callback, the handler, the reply callback, the shutdown handler, the
    event loop running registered callbacks), whatever the collaborators
    answer, leaves it on. *)
Theorem host_filter_never_re_enabled :
  (forall env q l,
      host_filter_on (snd (sdap_sudo_init env (mk_world None q l))) = true ->
      configured_host_filter env = true) /\
  (forall ops w,
      host_filter_on w = false -> host_filter_on (run_ops ops w) = false).
Proof.
  split.
  - intros env q l. unfold configured_host_filter, host_filter_on.
    open_env env. unfold_code. cbn.
    destruct tz; cbn; [|discriminate].
    destruct (ro =? EOK); cbn; [|discriminate].
    destruct hs; cbn; [auto | discriminate].
  - intros ops. induction ops as [|[env o] ops IH]; intros w Hw; cbn; auto.
    apply IH. destruct (host_filter_on (snd (run_op env o w))) eqn:E; auto.
    apply run_op_flag in E. congruence.
Qed.

Lemma host_filter_never_re_enabled_witness :
  host_filter_on (snd (startup env_recv_fails world0)) = false /\
  host_filter_on
    (run_ops [(env_ok, op_handler req_full); (env_ok, op_tevent_loop);
              (env_ok, op_get_hostinfo_done); (env_ok, op_shutdown)]
       (snd (startup env_recv_fails world0))) = false.
Proof.
  split; [reflexivity|].
  apply (proj2 host_filter_never_re_enabled). reflexivity.
Defined.

(** ** Further properties of the request path *)

(** X1.  Online, when the refresh request for a full or a rules refresh
    cannot be created ([NULL]), the handler answers at once with
    [DP_ERR_FATAL] and [ENOMEM] and registers no callback. *)
Theorem handler_send_failure env r w :
  be_is_offline env = false ->
  (type r = BE_REQ_SUDO_FULL /\ sdap_sudo_full_refresh_send env = false) \/
  (type r = BE_REQ_SUDO_RULES /\ sdap_sudo_rules_refresh_send env = false) ->
  sdap_sudo_handler env r w =
    (tt, mk_world (sudo_ctx w) (pending w)
           (log w ++ [if type r =? BE_REQ_SUDO_FULL
                      then ev_full_refresh_send
                      else ev_rules_refresh_send (rules r);
                      ev_handler_done DP_ERR_FATAL ENOMEM str_NULL])).
Proof.
  intros Hon [[Ht Hs] | [Ht Hs]];
    unfold sdap_sudo_handler; rewrite Hon, Ht, Hs;
    unfold_code; cbn; now rewrite <- app_assoc.
Qed.

Lemma handler_send_failure_witness :
  (be_is_offline env_dispatch_fails = false /\
   type req_rules = BE_REQ_SUDO_RULES /\
   sdap_sudo_rules_refresh_send env_dispatch_fails = false) /\
  sdap_sudo_handler env_dispatch_fails req_rules world0 =
    (tt, mk_world None []
           [ev_rules_refresh_send ["rule1"%string];
            ev_handler_done DP_ERR_FATAL ENOMEM str_NULL]).
Proof.
  split; [repeat split|].
  apply (handler_send_failure env_dispatch_fails req_rules world0 eq_refl).
  right. split; reflexivity.
Defined.



(** X3.  A rules refresh from arrival to reply, when the refresh ends with
    an error or reports no deletion: the handler sends the refresh for the
    rules of the request and [sdap_sudo_reply] answers with the error code
    and category the refresh returned, unchanged.  In particular a deletion
    reported together with an error does not turn the error into
    [ENOENT]. *)
Theorem rules_refresh_end_to_end env r c l e dp deleted :
  be_is_offline env = false ->
  type r = BE_REQ_SUDO_RULES ->
  sdap_sudo_rules_refresh_send env = true ->
  sdap_sudo_rules_refresh_recv env = (e, dp, deleted) ->
  e <> EOK \/ deleted = false ->
  serve env r (mk_world c [] l) =
    (tt, mk_world c []
           (l ++ [ev_rules_refresh_send (rules r);
                  ev_set_callback (cb_reply r);
                  ev_rules_refresh_recv;
                  ev_handler_done dp e (str_strerror e)])).
Proof.
  intros Hon Ht Hs Hr Hkeep.
  assert (K : (if (e =? EOK) && deleted then ENOENT else e) = e).
  { destruct Hkeep as [He | ->].
    - apply Z.eqb_neq in He. now rewrite He.
    - now rewrite andb_false_r. }
  unfold serve, tevent_loop, bind, sdap_sudo_handler.
  rewrite Hon, Ht, Hs. unfold_code. cbn. rewrite Ht, Hr. cbn.
  rewrite K. now repeat rewrite <- app_assoc.
Qed.

Lemma rules_refresh_end_to_end_witness :
  (be_is_offline env_refresh_fails = false /\
   type req_rules = BE_REQ_SUDO_RULES /\
   sdap_sudo_rules_refresh_send env_refresh_fails = true /\
   sdap_sudo_rules_refresh_recv env_refresh_fails
   = (110, DP_ERR_OFFLINE, true) /\
   (110 <> EOK \/ true = false)) /\
  log (snd (serve env_refresh_fails req_rules world0)) =
    [ev_rules_refresh_send ["rule1"%string];
     ev_set_callback (cb_reply req_rules);
     ev_rules_refresh_recv;
     ev_handler_done DP_ERR_OFFLINE 110 (str_strerror 110)].
Proof.
  split; [repeat split; left; discriminate|].
  unfold world0.
  rewrite (rules_refresh_end_to_end env_refresh_fails req_rules None []
             110 DP_ERR_OFFLINE true eq_refl eq_refl eq_refl eq_refl).
  - reflexivity.
  - left; discriminate.
Defined.

(** X4.  [sdap_sudo_reply] called for a request whose type is neither
    [BE_REQ_SUDO_FULL] nor [BE_REQ_SUDO_RULES] reads no refresh result and
    answers with [DP_ERR_FATAL] and [ERR_INTERNAL]. *)
Theorem reply_unknown_type env r w :
  type r <> BE_REQ_SUDO_FULL ->
  type r <> BE_REQ_SUDO_RULES ->
  sdap_sudo_reply env r w =
    (tt, mk_world (sudo_ctx w) (pending w)
           (log w ++ [ev_handler_done DP_ERR_FATAL ERR_INTERNAL
                        (str_strerror ERR_INTERNAL)])).
Proof.
  intros Hf Hr. apply Z.eqb_neq in Hf, Hr.
  unfold sdap_sudo_reply. rewrite Hf, Hr. reflexivity.
Qed.

Lemma reply_unknown_type_witness :
  (type req_unknown <> BE_REQ_SUDO_FULL /\
   type req_unknown <> BE_REQ_SUDO_RULES) /\
  log (snd (sdap_sudo_reply env_ok req_unknown world0)) =
    [ev_handler_done DP_ERR_FATAL ERR_INTERNAL (str_strerror ERR_INTERNAL)].
Proof.
  split; [split; discriminate|].
  rewrite (reply_unknown_type env_ok req_unknown world0);
    [reflexivity | discriminate | discriminate].
Defined.

(** X5.  One call of the handler sends at most one refresh: none while
    offline or for a request of unknown type, exactly one otherwise, also
    when the request then turns out to be [NULL]. *)
Theorem handler_dispatch_count env r w :
  count is_dispatch (log (snd (sdap_sudo_handler env r w))) =
  (count is_dispatch (log w) +
   if be_is_offline env then 0
   else if ((type r =? BE_REQ_SUDO_FULL)%Z
            || (type r =? BE_REQ_SUDO_RULES)%Z)%bool
        then 1 else 0)%nat.
Proof.
  open_env env. unfold_code. cbn.
  destruct off; cbn; [now rewrite count_snoc|].
  destruct (type r =? BE_REQ_SUDO_FULL); cbn.
  - destruct fs; cbn; repeat rewrite count_snoc; cbn; lia.
  - destruct (type r =? BE_REQ_SUDO_RULES); cbn.
    + destruct rs; cbn; repeat rewrite count_snoc; cbn; lia.
    + now rewrite count_snoc.
Qed.

(** *** Several requests *)

Lemma serve_startup_calls env r c l :
  count is_startup_call (log (snd (serve env r (mk_world c [] l))))
  = count is_startup_call l.
Proof.
  open_env env. unfold_code. cbn.
  split_code; repeat rewrite count_snoc; cbn; lia.
Qed.





(** X8.  Serving requests makes none of the start-up calls: the options
    are not loaded again, no host information is asked for or read, and
    the periodic task is not set up by any request. *)
Theorem requests_make_no_startup_calls reqs c l :
  count is_startup_call (log (serve_all reqs (mk_world c [] l)))
  = count is_startup_call l.
Proof.
  revert l. induction reqs as [|[env r] reqs IH]; intros l; cbn; auto.
  pose proof (serve_startup_calls env r c l) as Hs.
  destruct (serve_shape env r c l) as [Hc [Hq _]].
  destruct (snd (serve env r (mk_world c [] l))) as [c' q' l'].
  cbn in Hc, Hq, Hs. subst.
  fold (serve_all reqs (mk_world c [] l')).
  now rewrite IH.
Qed.

(** ** Further properties of start-up *)

Lemma serve_keeps_count p env r c l :
  (forall e, is_startup_call e = false -> p e = false) ->
  count p (log (snd (serve env r (mk_world c [] l)))) = count p l.
Proof.
  intros Hp. open_env env. unfold_code. cbn.
  split_code; repeat rewrite count_snoc;
    repeat match goal with
      | |- context [p ?e] => rewrite (Hp e eq_refl)
      end; lia.
Qed.

Lemma serve_all_keeps_count p reqs c l :
  (forall e, is_startup_call e = false -> p e = false) ->
  count p (log (serve_all reqs (mk_world c [] l))) = count p l.
Proof.
  intros Hp. revert l.
  induction reqs as [|[env r] reqs IH]; intros l; cbn; auto.
  pose proof (serve_keeps_count p env r c l Hp) as Hs.
  destruct (serve_shape env r c l) as [Hc [Hq _]].
  destruct (snd (serve env r (mk_world c [] l))) as [c' q' l'].
  cbn in Hc, Hq, Hs. subst.
  fold (serve_all reqs (mk_world c [] l')).
  now rewrite IH.
Qed.

(** X9.  When there is no memory for the context, [sdap_sudo_init]
    returns [ENOMEM] and has done nothing else: no option is read, no
    request sent, no callback registered. *)
Theorem init_talloc_failure env w :
  talloc_zero env = false ->
  sdap_sudo_init env w = (ENOMEM, w).
Proof.
  intros Ha. unfold sdap_sudo_init. now rewrite Ha.
Qed.

Lemma init_talloc_failure_witness :
  talloc_zero env_noalloc = false /\
  sdap_sudo_init env_noalloc world0 = (ENOMEM, world0).
Proof.
  split; [reflexivity|].
  apply (init_talloc_failure env_noalloc world0). reflexivity.
Defined.

(** X10.  When [sdap_sudo_init] succeeds, the context it leaves holds the
    three options as loaded, except that [use_host_filter] is off when the
    host information request could not be created; [full_refresh_done] is
    false and there are no host names or addresses yet.  The callback
    [sdap_sudo_get_hostinfo_done] is registered exactly when the request
    was created.  Nothing of the world before the call shows in the new
    context. *)
Theorem init_success_state env w :
  talloc_zero env = true ->
  fst (ldap_get_sudo_options env) = EOK ->
  fst (sdap_sudo_init env w) = EOK /\
  sudo_ctx (snd (sdap_sudo_init env w)) = Some (init_ctx env) /\
  pending (snd (sdap_sudo_init env w)) =
    pending w ++ (if sdap_sudo_get_hostinfo_send env
                  then [cb_get_hostinfo_done] else []).
Proof.
  intros Ha Ho. unfold init_ctx. open_env env. subst.
  unfold_code. cbn.
  destruct hs; cbn; rewrite ?andb_true_r, ?andb_false_r, ?app_nil_r; auto.
Qed.

Lemma init_success_state_witness :
  (talloc_zero env_nosend = true /\
   fst (ldap_get_sudo_options env_nosend) = EOK) /\
  sudo_ctx (snd (sdap_sudo_init env_nosend world0)) =
    Some (mk_sudo_ctx None None true false false false).
Proof.
  split; [split; reflexivity|].
  destruct (init_success_state env_nosend world0 eq_refl eq_refl)
    as [_ [H _]].
  rewrite H. reflexivity.
Defined.

(** X11.  The host information callback, on any context: [hostnames] and
    [ip_addr] are replaced by what the request handed over, whether it
    succeeded or not, so an earlier host identity never survives the
    callback; [use_host_filter] stays on only if it was on and the request
    returned [EOK]; the other fields are untouched.  The callback reads the
    result, sets up the periodic task, registers nothing and sends no
    reply. *)
Theorem hostinfo_done_effect env c q l :
  sdap_sudo_get_hostinfo_done env (mk_world (Some c) q l) =
    (tt, mk_world
           (Some (mk_sudo_ctx (fetched_hostnames env) (fetched_ip_addr env)
                    (include_netgroups c) (include_regexp c)
                    (use_host_filter c
                     && (fst (sdap_sudo_get_hostinfo_recv env) =? EOK))
                    (full_refresh_done c)))
           q (l ++ [ev_get_hostinfo_recv; ev_ptask_setup])).
Proof.
  unfold fetched_hostnames, fetched_ip_addr. open_env env.
  unfold_code. cbn.
  destruct (rr =? EOK); cbn;
    rewrite ?andb_true_r, ?andb_false_r, <- app_assoc; reflexivity.
Qed.

(** X12.  The context once start-up is over (the callback, if registered,
    has run): the host filter is on exactly when it was configured on, the
    host information request was created and it returned [EOK]; the other
    two options are as loaded, [full_refresh_done] is false, and the host
    names and addresses are those the request handed over, or absent when
    no request was created. *)
Theorem startup_final_context env c0 l0 :
  talloc_zero env = true ->
  fst (ldap_get_sudo_options env) = EOK ->
  exists c,
    startup env (mk_world c0 [] l0)
    = (EOK, mk_world (Some c) [] (log (snd (startup env (mk_world c0 [] l0)))))
    /\ use_host_filter c =
         configured_host_filter env
         && sdap_sudo_get_hostinfo_send env
         && (fst (sdap_sudo_get_hostinfo_recv env) =? EOK)
    /\ include_regexp c = include_regexp (init_ctx env)
    /\ include_netgroups c = include_netgroups (init_ctx env)
    /\ full_refresh_done c = false
    /\ hostnames c = (if sdap_sudo_get_hostinfo_send env
                      then fetched_hostnames env else None)
    /\ ip_addr c = (if sdap_sudo_get_hostinfo_send env
                    then fetched_ip_addr env else None).
Proof.
  intros Ha Ho.
  unfold configured_host_filter, init_ctx, fetched_hostnames,
    fetched_ip_addr.
  open_env env. subst. unfold_code. cbn.
  destruct hs; cbn.
  - destruct (rr =? EOK); cbn; eexists; repeat split;
      cbn; rewrite ?andb_true_r, ?andb_false_r; reflexivity.
  - eexists; repeat split;
      cbn; rewrite ?andb_true_r, ?andb_false_r; reflexivity.
Qed.

Lemma startup_final_context_witness :
  (talloc_zero env_ok = true /\ fst (ldap_get_sudo_options env_ok) = EOK) /\
  fst (startup env_ok world0) = EOK.
Proof.
  split; [split; reflexivity|].
  destruct (startup_final_context env_ok None [] eq_refl eq_refl)
    as [c [H _]].
  unfold world0. rewrite H. reflexivity.
Defined.

(** X13.  Over the life of the provider the periodic task is set up
    exactly once: start-up does it once, and however many requests are
    served afterwards none of them does it again. *)
Theorem lifetime_single_arm env reqs :
  talloc_zero env = true ->
  fst (ldap_get_sudo_options env) = EOK ->
  count is_arm (log (serve_all reqs (snd (startup env world0)))) = 1%nat.
Proof.
  intros Ha Ho.
  assert (S : pending (snd (startup env world0)) = [] /\
              count is_arm (log (snd (startup env world0))) = 1%nat).
  { open_env env. subst. unfold_code. cbn.
    destruct hs; cbn; [destruct (rr =? EOK); cbn|]; auto. }
  destruct S as [Sq Sn].
  destruct (snd (startup env world0)) as [c1 q1 l1]. cbn in Sq, Sn. subst q1.
  rewrite serve_all_keeps_count; [exact Sn|].
  intros e He. destruct e; cbn in *; auto; discriminate.
Qed.

Lemma lifetime_single_arm_witness :
  (talloc_zero env_ok = true /\ fst (ldap_get_sudo_options env_ok) = EOK) /\
  count is_arm
    (log (serve_all [(env_ok, req_full); (env_offline, req_rules)]
            (snd (startup env_ok world0)))) = 1%nat.
Proof.
  split; [split; reflexivity|].
  apply (lifetime_single_arm env_ok); reflexivity.
Defined.
